(** * Issues-FS Service UI: configuration resolution and service composition

    A shallow embedding of [Issues_FS__Service_UI__Fast_API] (the bootstrap
    class of the service) and of the constants of [config.py], with the
    properties of the environment resolvers, of [setup_services] and of the
    console redirect.

    Conventions of the embedding.
    - A Python [str] is a [string].  [str.lower] is modelled on the ASCII
      letters; characters outside [A-Z] are kept.  The four tokens compared
      against a lowercased value only contain the letters a, e, f, l, n, o, s,
      which no character outside [A-Z] lowercases to.
    - [os.environ] is a finite map from names to values.
    - The typed attributes [issues_path] and [root_path] hold strings; [str(x)]
      of such an attribute is its content and an assignment stores the
      assigned string.
    - The collaborating packages (storage, repository, services) are opaque:
      every call into them is an event of a log, and an external world decides
      whether the call returns or raises. *)

From Stdlib Require Import Ascii String NArith List Bool.
From stdpp Require Import base option list strings gmap fin_maps.

Local Open Scope string_scope.

(** ** Strings *)

Module Str.

(** [c.lower()] for one character. *)
Definition lower_char (c : ascii) : ascii :=
  let n := N_of_ascii c in
  if ((65 <=? n) && (n <=? 90))%N then ascii_of_N (n + 32) else c.

(** [s.lower()]. *)
Fixpoint lower (s : string) : string :=
  match s with
  | EmptyString => EmptyString
  | String c s' => String (lower_char c) (lower s')
  end.

(** Truth value of a string: [bool(s)]. *)
Definition truthy (s : string) : bool :=
  match s with
  | EmptyString => false
  | String _ _ => true
  end.

(** [x in (t1, ..., tn)] for a tuple of strings. *)
Definition is_in (x : string) (ts : list string) : bool :=
  existsb (String.eqb x) ts.

End Str.

(** ** config.py *)

Module config.

Definition FAST_API__TITLE : string := "Issues-FS Service UI".
Definition FAST_API__DESCRIPTION : string :=
  "Issues-FS Service UI - Web-based user interface".
Definition UI__CONSOLE__ROUTE__CONSOLE : string := "console".
Definition UI__CONSOLE__ROUTE__START_PAGE : string := "index".
Definition UI__CONSOLE__MAJOR__VERSION : string := "v0/v0.1".
Definition UI__CONSOLE__LATEST__VERSION : string := "v0.1.7".

End config.

(** ** Environment *)

Definition DEFAULT__ISSUES_PATH : string := ".issues".
Definition ENV_VAR__ISSUES__IN_MEMORY : string := "ISSUES__IN_MEMORY".
Definition ENV_VAR__ISSUES__PATH : string := "ISSUES__PATH".
Definition ENV_VAR__ISSUES__ROOT_PATH : string := "ISSUES__ROOT_PATH".

(** [get_env(name, None)]: the value of the variable, [None] when unset. *)
Definition get_env (env : gmap string string) (name : string) : option string :=
  env !! name.


(** ** Collaborator objects

    The classes of the collaborating packages are used through their
    constructors only; an object is the record of its constructor
    arguments. *)

Inductive Storage_FS : Type :=
| Storage_FS__Memory
| Storage_FS__Local_Disk (root_path : string).

Record Memory_FS : Type :=
  { memory_fs__storage_fs : Storage_FS }.

Record Path__Handler__Graph_Node : Type :=
  { base_path : string }.

Record Graph__Repository : Type :=
  { repository__memory_fs : Memory_FS;
    repository__path_handler : Path__Handler__Graph_Node }.

Record Type__Service : Type :=
  { type_service__repository : Graph__Repository }.

Record Node__Service : Type :=
  { node_service__repository : Graph__Repository }.

Record Link__Service : Type :=
  { link_service__repository : Graph__Repository }.

Record Comments__Service : Type :=
  { comments_service__repository : Graph__Repository }.

Record Root__Selection__Service : Type :=
  { root_selection__repository : Graph__Repository;
    root_selection__path_handler : Path__Handler__Graph_Node }.

Record Root__Issue__Service : Type :=
  { root_issue__repository : Graph__Repository;
    root_issue__path_handler : Path__Handler__Graph_Node }.

Record Issue__Children__Service : Type :=
  { issue_children__repository : Graph__Repository;
    issue_children__path_handler : Path__Handler__Graph_Node }.

Record Storage__Status__Service : Type :=
  { storage_status__storage_fs : Storage_FS }.

Inductive Git__Status__Service : Type :=
| Build_Git__Status__Service.

Record Types__Status__Service : Type :=
  { types_status__type_service : Type__Service }.

Record Index__Status__Service : Type :=
  { index_status__type_service : Type__Service;
    index_status__repository : Graph__Repository }.

Record Server__Status__Service : Type :=
  { server_status__storage_service : Storage__Status__Service;
    server_status__git_service : Git__Status__Service;
    server_status__types_service : Types__Status__Service;
    server_status__index_service : Index__Status__Service }.

(** The request schema is a plain value carrying the selected path. *)
Record Schema__Root__Select__Request : Type :=
  { path : string }.

(** ** Calls into the collaborating packages

    One constructor per call site of [setup_services]: the constructor of a
    class with its keyword arguments, or a method with its receiver. *)

Inductive Call : Type :=
| new_Storage_FS__Memory
| new_Storage_FS__Local_Disk (root_path : string)
| new_Memory_FS (storage_fs : Storage_FS)
| new_Path__Handler__Graph_Node (base_path : string)
| new_Graph__Repository (memory_fs : Memory_FS)
    (path_handler : Path__Handler__Graph_Node)
| new_Type__Service (repository : Graph__Repository)
| new_Node__Service (repository : Graph__Repository)
| new_Link__Service (repository : Graph__Repository)
| new_Comments__Service (repository : Graph__Repository)
| new_Root__Selection__Service (repository : Graph__Repository)
    (path_handler : Path__Handler__Graph_Node)
| new_Root__Issue__Service (repository : Graph__Repository)
    (path_handler : Path__Handler__Graph_Node)
| new_Issue__Children__Service (repository : Graph__Repository)
    (path_handler : Path__Handler__Graph_Node)
| new_Storage__Status__Service (storage_fs : Storage_FS)
| new_Git__Status__Service
| new_Types__Status__Service (type_service : Type__Service)
| new_Index__Status__Service (type_service : Type__Service)
    (repository : Graph__Repository)
| new_Server__Status__Service (storage_service : Storage__Status__Service)
    (git_service : Git__Status__Service)
    (types_service : Types__Status__Service)
    (index_service : Index__Status__Service)
| initialize_default_types (receiver : Type__Service)
| ensure_root_issue_exists (receiver : Root__Issue__Service)
| set_current_root (receiver : Root__Selection__Service)
    (request : Schema__Root__Select__Request).

(** What the log records of a call: that it was entered, and how it ended. *)
Inductive Event (Exn : Type) : Type :=
| Invoke (c : Call)
| Return (c : Call)
| Raise (c : Call) (x : Exn).

Arguments Invoke {Exn} c.
Arguments Return {Exn} c.
Arguments Raise {Exn} c x.

(** How the external world answers a call: it returns or raises, and moves
    to a new state of its own either way. *)
Inductive Outcome (W Exn : Type) : Type :=
| Returns (w : W)
| Raises (x : Exn) (w : W).

Arguments Returns {W Exn} w.
Arguments Raises {W Exn} x w.

(** Recognisers of the calls the ordering properties speak about. *)
Definition is_initialize_default_types (c : Call) : bool :=
  match c with initialize_default_types _ => true | _ => false end.

Definition is_ensure_root_issue_exists (c : Call) : bool :=
  match c with ensure_root_issue_exists _ => true | _ => false end.

Definition is_set_current_root (c : Call) : bool :=
  match c with set_current_root _ _ => true | _ => false end.

Definition is_new_storage_fs (c : Call) : bool :=
  match c with
  | new_Storage_FS__Memory | new_Storage_FS__Local_Disk _ => true
  | _ => false
  end.

Definition invoked {Exn} (p : Call -> bool) (e : Event Exn) : bool :=
  match e with Invoke c => p c | _ => false end.

Definition returned {Exn} (p : Call -> bool) (e : Event Exn) : bool :=
  match e with Return c => p c | _ => false end.

(** ** The application object *)

Record Issues_FS__Service_UI__Fast_API : Type :=
  { run_in_memory : bool;
    issues_path : string;
    root_path : string;
    memory_fs : option Memory_FS;
    path_handler : option Path__Handler__Graph_Node;
    graph_repository : option Graph__Repository;
    link_service : option Link__Service;
    node_service : option Node__Service;
    type_service : option Type__Service;
    comments_service : option Comments__Service;
    root_selection_service : option Root__Selection__Service;
    root_issue_service : option Root__Issue__Service;
    issue_children_service : option Issue__Children__Service;
    storage_status__service : option Storage__Status__Service;
    git_status__service : option Git__Status__Service;
    types_status__service : option Types__Status__Service;
    index_status__service : option Index__Status__Service;
    server_status_service : option Server__Status__Service }.

(** The class-level defaults of the attributes. *)
Definition default_instance : Issues_FS__Service_UI__Fast_API :=
  {| run_in_memory := true;
     issues_path := DEFAULT__ISSUES_PATH;
     root_path := "";
     memory_fs := None;
     path_handler := None;
     graph_repository := None;
     link_service := None;
     node_service := None;
     type_service := None;
     comments_service := None;
     root_selection_service := None;
     root_issue_service := None;
     issue_children_service := None;
     storage_status__service := None;
     git_status__service := None;
     types_status__service := None;
     index_status__service := None;
     server_status_service := None |}.

(** Attribute assignment [self.f = v], one function per attribute that
    [setup_services] assigns; every other attribute is kept. *)

Definition set_run_in_memory (v : bool)
    (self : Issues_FS__Service_UI__Fast_API) : Issues_FS__Service_UI__Fast_API :=
  {| run_in_memory := v;
     issues_path := issues_path self;
     root_path := root_path self;
     memory_fs := memory_fs self;
     path_handler := path_handler self;
     graph_repository := graph_repository self;
     link_service := link_service self;
     node_service := node_service self;
     type_service := type_service self;
     comments_service := comments_service self;
     root_selection_service := root_selection_service self;
     root_issue_service := root_issue_service self;
     issue_children_service := issue_children_service self;
     storage_status__service := storage_status__service self;
     git_status__service := git_status__service self;
     types_status__service := types_status__service self;
     index_status__service := index_status__service self;
     server_status_service := server_status_service self |}.

Definition set_root_path (v : string)
    (self : Issues_FS__Service_UI__Fast_API) : Issues_FS__Service_UI__Fast_API :=
  {| run_in_memory := run_in_memory self;
     issues_path := issues_path self;
     root_path := v;
     memory_fs := memory_fs self;
     path_handler := path_handler self;
     graph_repository := graph_repository self;
     link_service := link_service self;
     node_service := node_service self;
     type_service := type_service self;
     comments_service := comments_service self;
     root_selection_service := root_selection_service self;
     root_issue_service := root_issue_service self;
     issue_children_service := issue_children_service self;
     storage_status__service := storage_status__service self;
     git_status__service := git_status__service self;
     types_status__service := types_status__service self;
     index_status__service := index_status__service self;
     server_status_service := server_status_service self |}.

Definition set_memory_fs (v : Memory_FS)
    (self : Issues_FS__Service_UI__Fast_API) : Issues_FS__Service_UI__Fast_API :=
  {| run_in_memory := run_in_memory self;
     issues_path := issues_path self;
     root_path := root_path self;
     memory_fs := Some v;
     path_handler := path_handler self;
     graph_repository := graph_repository self;
     link_service := link_service self;
     node_service := node_service self;
     type_service := type_service self;
     comments_service := comments_service self;
     root_selection_service := root_selection_service self;
     root_issue_service := root_issue_service self;
     issue_children_service := issue_children_service self;
     storage_status__service := storage_status__service self;
     git_status__service := git_status__service self;
     types_status__service := types_status__service self;
     index_status__service := index_status__service self;
     server_status_service := server_status_service self |}.

Definition set_path_handler (v : Path__Handler__Graph_Node)
    (self : Issues_FS__Service_UI__Fast_API) : Issues_FS__Service_UI__Fast_API :=
  {| run_in_memory := run_in_memory self;
     issues_path := issues_path self;
     root_path := root_path self;
     memory_fs := memory_fs self;
     path_handler := Some v;
     graph_repository := graph_repository self;
     link_service := link_service self;
     node_service := node_service self;
     type_service := type_service self;
     comments_service := comments_service self;
     root_selection_service := root_selection_service self;
     root_issue_service := root_issue_service self;
     issue_children_service := issue_children_service self;
     storage_status__service := storage_status__service self;
     git_status__service := git_status__service self;
     types_status__service := types_status__service self;
     index_status__service := index_status__service self;
     server_status_service := server_status_service self |}.

Definition set_graph_repository (v : Graph__Repository)
    (self : Issues_FS__Service_UI__Fast_API) : Issues_FS__Service_UI__Fast_API :=
  {| run_in_memory := run_in_memory self;
     issues_path := issues_path self;
     root_path := root_path self;
     memory_fs := memory_fs self;
     path_handler := path_handler self;
     graph_repository := Some v;
     link_service := link_service self;
     node_service := node_service self;
     type_service := type_service self;
     comments_service := comments_service self;
     root_selection_service := root_selection_service self;
     root_issue_service := root_issue_service self;
     issue_children_service := issue_children_service self;
     storage_status__service := storage_status__service self;
     git_status__service := git_status__service self;
     types_status__service := types_status__service self;
     index_status__service := index_status__service self;
     server_status_service := server_status_service self |}.

Definition set_link_service (v : Link__Service)
    (self : Issues_FS__Service_UI__Fast_API) : Issues_FS__Service_UI__Fast_API :=
  {| run_in_memory := run_in_memory self;
     issues_path := issues_path self;
     root_path := root_path self;
     memory_fs := memory_fs self;
     path_handler := path_handler self;
     graph_repository := graph_repository self;
     link_service := Some v;
     node_service := node_service self;
     type_service := type_service self;
     comments_service := comments_service self;
     root_selection_service := root_selection_service self;
     root_issue_service := root_issue_service self;
     issue_children_service := issue_children_service self;
     storage_status__service := storage_status__service self;
     git_status__service := git_status__service self;
     types_status__service := types_status__service self;
     index_status__service := index_status__service self;
     server_status_service := server_status_service self |}.

Definition set_node_service (v : Node__Service)
    (self : Issues_FS__Service_UI__Fast_API) : Issues_FS__Service_UI__Fast_API :=
  {| run_in_memory := run_in_memory self;
     issues_path := issues_path self;
     root_path := root_path self;
     memory_fs := memory_fs self;
     path_handler := path_handler self;
     graph_repository := graph_repository self;
     link_service := link_service self;
     node_service := Some v;
     type_service := type_service self;
     comments_service := comments_service self;
     root_selection_service := root_selection_service self;
     root_issue_service := root_issue_service self;
     issue_children_service := issue_children_service self;
     storage_status__service := storage_status__service self;
     git_status__service := git_status__service self;
     types_status__service := types_status__service self;
     index_status__service := index_status__service self;
     server_status_service := server_status_service self |}.

Definition set_type_service (v : Type__Service)
    (self : Issues_FS__Service_UI__Fast_API) : Issues_FS__Service_UI__Fast_API :=
  {| run_in_memory := run_in_memory self;
     issues_path := issues_path self;
     root_path := root_path self;
     memory_fs := memory_fs self;
     path_handler := path_handler self;
     graph_repository := graph_repository self;
     link_service := link_service self;
     node_service := node_service self;
     type_service := Some v;
     comments_service := comments_service self;
     root_selection_service := root_selection_service self;
     root_issue_service := root_issue_service self;
     issue_children_service := issue_children_service self;
     storage_status__service := storage_status__service self;
     git_status__service := git_status__service self;
     types_status__service := types_status__service self;
     index_status__service := index_status__service self;
     server_status_service := server_status_service self |}.

Definition set_comments_service (v : Comments__Service)
    (self : Issues_FS__Service_UI__Fast_API) : Issues_FS__Service_UI__Fast_API :=
  {| run_in_memory := run_in_memory self;
     issues_path := issues_path self;
     root_path := root_path self;
     memory_fs := memory_fs self;
     path_handler := path_handler self;
     graph_repository := graph_repository self;
     link_service := link_service self;
     node_service := node_service self;
     type_service := type_service self;
     comments_service := Some v;
     root_selection_service := root_selection_service self;
     root_issue_service := root_issue_service self;
     issue_children_service := issue_children_service self;
     storage_status__service := storage_status__service self;
     git_status__service := git_status__service self;
     types_status__service := types_status__service self;
     index_status__service := index_status__service self;
     server_status_service := server_status_service self |}.

Definition set_root_selection_service (v : Root__Selection__Service)
    (self : Issues_FS__Service_UI__Fast_API) : Issues_FS__Service_UI__Fast_API :=
  {| run_in_memory := run_in_memory self;
     issues_path := issues_path self;
     root_path := root_path self;
     memory_fs := memory_fs self;
     path_handler := path_handler self;
     graph_repository := graph_repository self;
     link_service := link_service self;
     node_service := node_service self;
     type_service := type_service self;
     comments_service := comments_service self;
     root_selection_service := Some v;
     root_issue_service := root_issue_service self;
     issue_children_service := issue_children_service self;
     storage_status__service := storage_status__service self;
     git_status__service := git_status__service self;
     types_status__service := types_status__service self;
     index_status__service := index_status__service self;
     server_status_service := server_status_service self |}.

Definition set_root_issue_service (v : Root__Issue__Service)
    (self : Issues_FS__Service_UI__Fast_API) : Issues_FS__Service_UI__Fast_API :=
  {| run_in_memory := run_in_memory self;
     issues_path := issues_path self;
     root_path := root_path self;
     memory_fs := memory_fs self;
     path_handler := path_handler self;
     graph_repository := graph_repository self;
     link_service := link_service self;
     node_service := node_service self;
     type_service := type_service self;
     comments_service := comments_service self;
     root_selection_service := root_selection_service self;
     root_issue_service := Some v;
     issue_children_service := issue_children_service self;
     storage_status__service := storage_status__service self;
     git_status__service := git_status__service self;
     types_status__service := types_status__service self;
     index_status__service := index_status__service self;
     server_status_service := server_status_service self |}.

Definition set_issue_children_service (v : Issue__Children__Service)
    (self : Issues_FS__Service_UI__Fast_API) : Issues_FS__Service_UI__Fast_API :=
  {| run_in_memory := run_in_memory self;
     issues_path := issues_path self;
     root_path := root_path self;
     memory_fs := memory_fs self;
     path_handler := path_handler self;
     graph_repository := graph_repository self;
     link_service := link_service self;
     node_service := node_service self;
     type_service := type_service self;
     comments_service := comments_service self;
     root_selection_service := root_selection_service self;
     root_issue_service := root_issue_service self;
     issue_children_service := Some v;
     storage_status__service := storage_status__service self;
     git_status__service := git_status__service self;
     types_status__service := types_status__service self;
     index_status__service := index_status__service self;
     server_status_service := server_status_service self |}.

Definition set_storage_status__service (v : Storage__Status__Service)
    (self : Issues_FS__Service_UI__Fast_API) : Issues_FS__Service_UI__Fast_API :=
  {| run_in_memory := run_in_memory self;
     issues_path := issues_path self;
     root_path := root_path self;
     memory_fs := memory_fs self;
     path_handler := path_handler self;
     graph_repository := graph_repository self;
     link_service := link_service self;
     node_service := node_service self;
     type_service := type_service self;
     comments_service := comments_service self;
     root_selection_service := root_selection_service self;
     root_issue_service := root_issue_service self;
     issue_children_service := issue_children_service self;
     storage_status__service := Some v;
     git_status__service := git_status__service self;
     types_status__service := types_status__service self;
     index_status__service := index_status__service self;
     server_status_service := server_status_service self |}.

Definition set_git_status__service (v : Git__Status__Service)
    (self : Issues_FS__Service_UI__Fast_API) : Issues_FS__Service_UI__Fast_API :=
  {| run_in_memory := run_in_memory self;
     issues_path := issues_path self;
     root_path := root_path self;
     memory_fs := memory_fs self;
     path_handler := path_handler self;
     graph_repository := graph_repository self;
     link_service := link_service self;
     node_service := node_service self;
     type_service := type_service self;
     comments_service := comments_service self;
     root_selection_service := root_selection_service self;
     root_issue_service := root_issue_service self;
     issue_children_service := issue_children_service self;
     storage_status__service := storage_status__service self;
     git_status__service := Some v;
     types_status__service := types_status__service self;
     index_status__service := index_status__service self;
     server_status_service := server_status_service self |}.

Definition set_types_status__service (v : Types__Status__Service)
    (self : Issues_FS__Service_UI__Fast_API) : Issues_FS__Service_UI__Fast_API :=
  {| run_in_memory := run_in_memory self;
     issues_path := issues_path self;
     root_path := root_path self;
     memory_fs := memory_fs self;
     path_handler := path_handler self;
     graph_repository := graph_repository self;
     link_service := link_service self;
     node_service := node_service self;
     type_service := type_service self;
     comments_service := comments_service self;
     root_selection_service := root_selection_service self;
     root_issue_service := root_issue_service self;
     issue_children_service := issue_children_service self;
     storage_status__service := storage_status__service self;
     git_status__service := git_status__service self;
     types_status__service := Some v;
     index_status__service := index_status__service self;
     server_status_service := server_status_service self |}.

Definition set_index_status__service (v : Index__Status__Service)
    (self : Issues_FS__Service_UI__Fast_API) : Issues_FS__Service_UI__Fast_API :=
  {| run_in_memory := run_in_memory self;
     issues_path := issues_path self;
     root_path := root_path self;
     memory_fs := memory_fs self;
     path_handler := path_handler self;
     graph_repository := graph_repository self;
     link_service := link_service self;
     node_service := node_service self;
     type_service := type_service self;
     comments_service := comments_service self;
     root_selection_service := root_selection_service self;
     root_issue_service := root_issue_service self;
     issue_children_service := issue_children_service self;
     storage_status__service := storage_status__service self;
     git_status__service := git_status__service self;
     types_status__service := types_status__service self;
     index_status__service := Some v;
     server_status_service := server_status_service self |}.

Definition set_server_status_service (v : Server__Status__Service)
    (self : Issues_FS__Service_UI__Fast_API) : Issues_FS__Service_UI__Fast_API :=
  {| run_in_memory := run_in_memory self;
     issues_path := issues_path self;
     root_path := root_path self;
     memory_fs := memory_fs self;
     path_handler := path_handler self;
     graph_repository := graph_repository self;
     link_service := link_service self;
     node_service := node_service self;
     type_service := type_service self;
     comments_service := comments_service self;
     root_selection_service := root_selection_service self;
     root_issue_service := root_issue_service self;
     issue_children_service := issue_children_service self;
     storage_status__service := storage_status__service self;
     git_status__service := git_status__service self;
     types_status__service := types_status__service self;
     index_status__service := index_status__service self;
     server_status_service := Some v |}.

(** ** Configuration resolution

    The three resolvers read the process environment and the attributes of
    the instance, and nothing else. *)

Definition resolve_storage_mode (env : gmap string string)
    (self : Issues_FS__Service_UI__Fast_API) : bool :=
  match get_env env ENV_VAR__ISSUES__IN_MEMORY with
  | Some env_value =>
      negb (Str.is_in (Str.lower env_value) ["false"; "0"; "no"; "off"])
  | None => run_in_memory self
  end.

Definition resolve_issues_path (env : gmap string string)
    (self : Issues_FS__Service_UI__Fast_API) : string :=
  match get_env env ENV_VAR__ISSUES__PATH with
  | Some env_value =>
      if Str.truthy env_value then env_value else issues_path self
  | None => issues_path self
  end.

Definition resolve_root_path (env : gmap string string)
    (self : Issues_FS__Service_UI__Fast_API) : string :=
  let instance_root :=
    if Str.truthy (root_path self) then root_path self else "" in
  match get_env env ENV_VAR__ISSUES__ROOT_PATH with
  | Some env_value =>
      if Str.truthy env_value then env_value else instance_root
  | None => instance_root
  end.

Definition get_current_root_path
    (self : Issues_FS__Service_UI__Fast_API) : string :=
  if Str.truthy (root_path self) then root_path self
  else issues_path self.

(** ** Execution of a method body

    A method runs on a state made of the instance, the external world and the
    log of the calls made so far.  It ends with a value, or with an exception
    raised by a collaborator; the state reached is kept in both cases, since
    an exception does not undo the assignments made before it. *)

Record State (W Exn : Type) : Type :=
  { app : Issues_FS__Service_UI__Fast_API;
    world : W;
    log : list (Event Exn) }.

Arguments app {W Exn} s.
Arguments world {W Exn} s.
Arguments log {W Exn} s.

Inductive Result (W Exn A : Type) : Type :=
| Ok (a : A) (s : State W Exn)
| Raised (x : Exn) (s : State W Exn).

Arguments Ok {W Exn A} a s.
Arguments Raised {W Exn A} x s.

Definition final {W Exn A} (r : Result W Exn A) : State W Exn :=
  match r with
  | Ok _ s => s
  | Raised _ s => s
  end.

Definition completed {W Exn A} (r : Result W Exn A) : bool :=
  match r with
  | Ok _ _ => true
  | Raised _ _ => false
  end.

Definition M (W Exn A : Type) : Type := State W Exn -> Result W Exn A.

Definition ret {W Exn A} (a : A) : M W Exn A :=
  fun s => Ok a s.

Definition bind {W Exn A B} (m : M W Exn A) (k : A -> M W Exn B) : M W Exn B :=
  fun s =>
    match m s with
    | Ok a s' => k a s'
    | Raised x s' => Raised x s'
    end.

Declare Scope method_scope.
Delimit Scope method_scope with method.

Notation "x <- m ;; k" := (bind m (fun x => k))
  (at level 100, m at next level, right associativity) : method_scope.
Notation "m ;; k" := (bind m (fun _ => k))
  (at level 100, right associativity) : method_scope.

(** A method of the instance that only reads it. *)
Definition method {W Exn A} (f : Issues_FS__Service_UI__Fast_API -> A) : M W Exn A :=
  fun s => Ok (f (app s)) s.

(** An attribute assignment. *)
Definition assign {W Exn}
    (f : Issues_FS__Service_UI__Fast_API -> Issues_FS__Service_UI__Fast_API) :
    M W Exn unit :=
  fun s => Ok tt {| app := f (app s); world := world s; log := log s |}.

Section Calls.

Context {W Exn : Type}.
Variable ext : Call -> W -> Outcome W Exn.

(** A call into a collaborating package. *)
Definition call (c : Call) : M W Exn unit :=
  fun s =>
    match ext c (world s) with
    | Returns w' =>
        Ok tt {| app := app s; world := w';
                 log := log s ++ [Invoke c; Return c] |}
    | Raises x w' =>
        Raised x {| app := app s; world := w';
                    log := log s ++ [Invoke c; Raise c x] |}
    end.

(** A constructor call: when it returns, its value is the object made of the
    arguments. *)
Definition construct {A} (c : Call) (obj : A) : M W Exn A :=
  (call c ;; ret obj)%method.

End Calls.

(** The state a method starts from when nothing has been logged yet. *)
Definition start {W Exn} (self0 : Issues_FS__Service_UI__Fast_API) (w : W) :
    State W Exn :=
  {| app := self0; world := w; log := [] |}.

(** ** setup_services *)

Section Setup.

Context {W Exn : Type}.
Variable ext : Call -> W -> Outcome W Exn.
Variable env : gmap string string.

Local Open Scope method_scope.

(** The body of [setup_services].  Where the source reads back an attribute
    it has just assigned ([self.memory_fs], [self.path_handler],
    [self.graph_repository], [self.type_service], ...), the model uses the
    object that was assigned. *)
Definition setup_services : M W Exn unit :=
  use_memory <- method (resolve_storage_mode env) ;;
  issues_path <- method (resolve_issues_path env) ;;
  root_path <- method (resolve_root_path env) ;;
  backend <-
    (if use_memory : bool then
       storage_fs <- construct ext new_Storage_FS__Memory Storage_FS__Memory ;;
       ret (storage_fs, issues_path)
     else
       assign (set_run_in_memory false) ;;
       storage_fs <- construct ext (new_Storage_FS__Local_Disk issues_path)
                       (Storage_FS__Local_Disk issues_path) ;;
       ret (storage_fs, "")) ;;
  let storage_fs := fst backend in
  let path_base := snd backend in
  memory_fs <- construct ext (new_Memory_FS storage_fs)
                 {| memory_fs__storage_fs := storage_fs |} ;;
  assign (set_memory_fs memory_fs) ;;
  path_handler <- construct ext (new_Path__Handler__Graph_Node path_base)
                    {| base_path := path_base |} ;;
  assign (set_path_handler path_handler) ;;
  graph_repository <-
    construct ext (new_Graph__Repository memory_fs path_handler)
      {| repository__memory_fs := memory_fs;
         repository__path_handler := path_handler |} ;;
  assign (set_graph_repository graph_repository) ;;
  type_service <- construct ext (new_Type__Service graph_repository)
                    {| type_service__repository := graph_repository |} ;;
  assign (set_type_service type_service) ;;
  node_service <- construct ext (new_Node__Service graph_repository)
                    {| node_service__repository := graph_repository |} ;;
  assign (set_node_service node_service) ;;
  link_service <- construct ext (new_Link__Service graph_repository)
                    {| link_service__repository := graph_repository |} ;;
  assign (set_link_service link_service) ;;
  comments_service <-
    construct ext (new_Comments__Service graph_repository)
      {| comments_service__repository := graph_repository |} ;;
  assign (set_comments_service comments_service) ;;
  root_selection_service <-
    construct ext (new_Root__Selection__Service graph_repository path_handler)
      {| root_selection__repository := graph_repository;
         root_selection__path_handler := path_handler |} ;;
  assign (set_root_selection_service root_selection_service) ;;
  root_issue_service <-
    construct ext (new_Root__Issue__Service graph_repository path_handler)
      {| root_issue__repository := graph_repository;
         root_issue__path_handler := path_handler |} ;;
  assign (set_root_issue_service root_issue_service) ;;
  issue_children_service <-
    construct ext (new_Issue__Children__Service graph_repository path_handler)
      {| issue_children__repository := graph_repository;
         issue_children__path_handler := path_handler |} ;;
  assign (set_issue_children_service issue_children_service) ;;
  storage_status__service <-
    construct ext (new_Storage__Status__Service storage_fs)
      {| storage_status__storage_fs := storage_fs |} ;;
  assign (set_storage_status__service storage_status__service) ;;
  git_status__service <-
    construct ext new_Git__Status__Service Build_Git__Status__Service ;;
  assign (set_git_status__service git_status__service) ;;
  types_status__service <-
    construct ext (new_Types__Status__Service type_service)
      {| types_status__type_service := type_service |} ;;
  assign (set_types_status__service types_status__service) ;;
  index_status__service <-
    construct ext (new_Index__Status__Service type_service graph_repository)
      {| index_status__type_service := type_service;
         index_status__repository := graph_repository |} ;;
  assign (set_index_status__service index_status__service) ;;
  server_status_service <-
    construct ext
      (new_Server__Status__Service storage_status__service git_status__service
         types_status__service index_status__service)
      {| server_status__storage_service := storage_status__service;
         server_status__git_service := git_status__service;
         server_status__types_service := types_status__service;
         server_status__index_service := index_status__service |} ;;
  assign (set_server_status_service server_status_service) ;;
  call ext (initialize_default_types type_service) ;;
  call ext (ensure_root_issue_exists root_issue_service) ;;
  (if Str.truthy root_path then
     call ext (set_current_root root_selection_service {| path := root_path |})
   else ret tt) ;;
  assign (set_root_path root_path).

End Setup.

(** ** setup_static_routes

    The router of the application is the list of its entries in registration
    order: a mounted static directory, or a GET route with its endpoint. *)

Inductive Response : Type :=
| RedirectResponse (url : string).

Inductive Router_Entry : Type :=
| Mount (mount_path : string) (directory : string) (name : string)
| Route_GET (route_path : string) (endpoint : unit -> Response).

(** [path_latest_version], the f-string of the redirect target. *)
Definition path_latest_version : string :=
  let path_name := config.UI__CONSOLE__ROUTE__CONSOLE in
  let major_version := config.UI__CONSOLE__MAJOR__VERSION in
  let latest_version := config.UI__CONSOLE__LATEST__VERSION in
  let start_page := config.UI__CONSOLE__ROUTE__START_PAGE in
  "/" +:+ path_name +:+ "/" +:+ major_version +:+ "/" +:+ latest_version
      +:+ "/" +:+ start_page +:+ ".html".

(** The endpoint defined inside [setup_static_routes]. *)
Definition redirect_to_latest (_ : unit) : Response :=
  RedirectResponse path_latest_version.

(** [path_static_folder] is the directory of the console package. *)
Definition setup_static_routes (path_static_folder : string)
    (router : list Router_Entry) : list Router_Entry :=
  let path_static := "/" +:+ config.UI__CONSOLE__ROUTE__CONSOLE in
  let path_name := config.UI__CONSOLE__ROUTE__CONSOLE in
  let mounted :=
    (router ++ [Mount path_static path_static_folder path_name])%list in
  (mounted ++ [Route_GET ("/" +:+ config.UI__CONSOLE__ROUTE__CONSOLE)
                 redirect_to_latest])%list.

(** The endpoints of the GET routes registered at a path. *)
Definition endpoints_at (p : string) (router : list Router_Entry) :
    list (unit -> Response) :=
  omap (fun e =>
          match e with
          | Route_GET q h => if String.eqb p q then Some h else None
          | Mount _ _ _ => None
          end) router.

(** ** Reading a log *)

(** [precedes P Q l]: scanning [l] from its start, an event satisfying [P]
    is met before any event satisfying [Q]. *)
Fixpoint precedes {E} (P Q : E -> bool) (l : list E) : bool :=
  match l with
  | [] => true
  | e :: l' => negb (Q e) && (P e || precedes P Q l')
  end.

(** [happens_before P Q l]: every occurrence in [l] of an event satisfying
    [Q] comes after an event satisfying [P]. *)
Definition happens_before {E} (P Q : E -> bool) (l : list E) : Prop :=
  forall (l1 : list E) (e : E) (l2 : list E),
    l = (l1 ++ e :: l2)%list -> Q e = true ->
    exists e' : E, e' ∈ l1 /\ P e' = true.

(** [occurs P l]: some event of [l] satisfies [P]. *)
Definition occurs {E} (P : E -> bool) (l : list E) : Prop :=
  exists e : E, e ∈ l /\ P e = true.

(** ** Sample external worlds *)

(** Every call returns. *)
Definition calm (c : Call) (w : unit) : Outcome unit string :=
  Returns w.

(** The configured root does not resolve to a node: [set_current_root]
    raises, every other call returns. *)
Definition no_such_root (c : Call) (w : unit) : Outcome unit string :=
  if is_set_current_root c then Raises "root not found" w else Returns w.

(** The disk backend cannot be constructed. *)
Definition no_disk (c : Call) (w : unit) : Outcome unit string :=
  match c with
  | new_Storage_FS__Local_Disk _ => Raises "disk not available" w
  | _ => Returns w
  end.

(** Sample environments: the disk scenario, a configured root, and an
    in-memory request. *)
Definition env_disk : gmap string string :=
  {[ ENV_VAR__ISSUES__IN_MEMORY := "false"; ENV_VAR__ISSUES__PATH := "/tmp/x" ]}.

Definition env_root : gmap string string :=
  {[ ENV_VAR__ISSUES__ROOT_PATH := "data/project-1" ]}.

Definition env_memory : gmap string string :=
  {[ ENV_VAR__ISSUES__IN_MEMORY := "true" ]}.

(** An instance created with [run_in_memory=False]. *)
Definition disk_instance : Issues_FS__Service_UI__Fast_API :=
  set_run_in_memory false default_instance.

(** ** setup_routes

    [add_routes(Routes_Class, service=...)] registers a route group with the
    keyword arguments it was given.  The value of a [service] argument is the
    attribute read at that moment, [None] when the attribute is unset. *)

Inductive Routes_Class : Type :=
| Routes__Links
| Routes__Nodes
| Routes__Types
| Routes__Server
| Routes__Comments
| Routes__Roots
| Routes__Issues
| Routes__Info
| Routes__Set_Cookie.

Inductive Route_Service : Type :=
| service_of_links (s : option Link__Service)
| service_of_nodes (s : option Node__Service)
| service_of_types (s : option Type__Service)
| service_of_server (s : option Server__Status__Service)
| service_of_comments (s : option Comments__Service)
| service_of_roots (s : option Root__Selection__Service)
| service_of_issues (s : option Issue__Children__Service).

(** A registered route group; [service_kwarg] is [None] when [add_routes] was
    called without a [service] argument. *)
Record Routes_Registration : Type :=
  { routes_class : Routes_Class;
    service_kwarg : option Route_Service }.

Definition add_routes (class_routes : Routes_Class)
    (service : option Route_Service)
    (registered : list Routes_Registration) : list Routes_Registration :=
  (registered
   ++ [{| routes_class := class_routes; service_kwarg := service |}])%list.

Definition setup_routes (self : Issues_FS__Service_UI__Fast_API)
    (registered : list Routes_Registration) : list Routes_Registration :=
  let registered :=
    add_routes Routes__Links
      (Some (service_of_links (link_service self))) registered in
  let registered :=
    add_routes Routes__Nodes
      (Some (service_of_nodes (node_service self))) registered in
  let registered :=
    add_routes Routes__Types
      (Some (service_of_types (type_service self))) registered in
  let registered :=
    add_routes Routes__Server
      (Some (service_of_server (server_status_service self))) registered in
  let registered :=
    add_routes Routes__Comments
      (Some (service_of_comments (comments_service self))) registered in
  let registered :=
    add_routes Routes__Roots
      (Some (service_of_roots (root_selection_service self))) registered in
  let registered :=
    add_routes Routes__Issues
      (Some (service_of_issues (issue_children_service self))) registered in
  let registered := add_routes Routes__Info None registered in
  add_routes Routes__Set_Cookie None registered.

(** The service a registration hands to its route group is a constructed
    object, not [None]. *)
Definition service_bound (reg : Routes_Registration) : bool :=
  match service_kwarg reg with
  | Some (service_of_links s) => bool_decide (is_Some s)
  | Some (service_of_nodes s) => bool_decide (is_Some s)
  | Some (service_of_types s) => bool_decide (is_Some s)
  | Some (service_of_server s) => bool_decide (is_Some s)
  | Some (service_of_comments s) => bool_decide (is_Some s)
  | Some (service_of_roots s) => bool_decide (is_Some s)
  | Some (service_of_issues s) => bool_decide (is_Some s)
  | None => false
  end.

(** The repository behind the service of a registration, for the route
    groups served by a graph service. *)
Definition service_repository (reg : Routes_Registration) :
    option Graph__Repository :=
  match service_kwarg reg with
  | Some (service_of_links s) => link_service__repository <$> s
  | Some (service_of_nodes s) => node_service__repository <$> s
  | Some (service_of_types s) => type_service__repository <$> s
  | Some (service_of_comments s) => comments_service__repository <$> s
  | Some (service_of_roots s) => root_selection__repository <$> s
  | Some (service_of_issues s) => issue_children__repository <$> s
  | Some (service_of_server _) | None => None
  end.

(** ** More readings of a log *)

(** The calls entered during a run, in order. *)
Definition invocations {Exn} (l : list (Event Exn)) : list Call :=
  omap (fun e => match e with Invoke c => Some c | _ => None end) l.

Definition is_raise {Exn} (e : Event Exn) : bool :=
  match e with Raise _ _ => true | _ => false end.


(** ** Proof automation for [setup_services] *)

#[local] Arguments resolve_storage_mode : simpl never.
#[local] Arguments resolve_issues_path : simpl never.
#[local] Arguments resolve_root_path : simpl never.

(** Runs the body of [setup_services] found in the goal: one case per value
    of the storage mode and of the truth value of the root path, and, inside
    each, one case per call at which the external world may raise. *)
Ltac run_setup ext env self0 :=
  let Hmode := fresh "Hmode" in
  let Hroot := fresh "Hroot" in
  destruct (resolve_storage_mode env self0) eqn:Hmode;
  destruct (Str.truthy (resolve_root_path env self0)) eqn:Hroot;
  cbv beta delta [setup_services bind method construct call assign ret start];
  cbn; rewrite ?Hmode, ?Hroot; cbn;
  repeat match goal with
         | |- context [match ext ?c ?w with Returns _ => _ | Raises _ _ => _ end] =>
             let Hext := fresh "Hext" in
             destruct (ext c w) eqn:Hext; cbn
         end.

(** Splits a membership in an explicit list into its cases, dropping the
    cases where the two events differ by their constructors. *)
Ltac in_log H :=
  repeat (apply elem_of_cons in H as [H|H];
          [try discriminate H|]);
  try (apply elem_of_nil in H; contradiction).


Ltac find_in_log :=
  repeat first [apply list_elem_of_here | apply list_elem_of_further].

(** * Properties *)

(** ** Strings and membership *)

Lemma is_in_elem_of (x : string) (ts : list string) :
  Str.is_in x ts = true ↔ x ∈ ts.
Proof.
  unfold Str.is_in. rewrite existsb_exists. split.
  - intros (t & Hin & Heq). apply String.eqb_eq in Heq. subst t.
    by apply list_elem_of_In.
  - intros Hin. exists x. split; [by apply list_elem_of_In|].
    apply String.eqb_refl.
Qed.

Lemma truthy_true (s : string) : Str.truthy s = true ↔ s ≠ "".
Proof. destruct s; cbn; split; intros; congruence. Qed.

Lemma truthy_false (s : string) : Str.truthy s = false ↔ s = "".
Proof. destruct s; cbn; split; intros; congruence. Qed.

Lemma lower_char_idempotent (c : ascii) :
  Str.lower_char (Str.lower_char c) = Str.lower_char c.
Proof.
  destruct c as [[] [] [] [] [] [] [] []]; reflexivity.
Qed.

Lemma lower_idempotent (s : string) : Str.lower (Str.lower s) = Str.lower s.
Proof.
  induction s as [|c s IH]; cbn; [reflexivity|].
  by rewrite lower_char_idempotent, IH.
Qed.

Lemma lower_length (s : string) : String.length (Str.lower s) = String.length s.
Proof. induction s as [|c s IH]; cbn; congruence. Qed.

Example lower_mixed_case :
  map Str.lower ["FALSE"; "False"; "0"; "No"; "oFF"; "true"; ""]
  = ["false"; "false"; "0"; "no"; "off"; "true"; ""].
Proof. reflexivity. Qed.

(** ** The resolvers *)

(** C1.  When [ISSUES__IN_MEMORY] is set to [v], [resolve_storage_mode]
    returns [False] exactly when the lowercase form of [v] is one of
    "false", "0", "no", "off", and [True] for every other value, the empty
    string included; when the variable is unset it returns the
    [run_in_memory] attribute of the instance. *)
Theorem resolve_storage_mode_spec (env : gmap string string)
    (self : Issues_FS__Service_UI__Fast_API) :
  (∀ v : string, env !! ENV_VAR__ISSUES__IN_MEMORY = Some v →
     (resolve_storage_mode env self = false
      ↔ Str.lower v ∈ ["false"; "0"; "no"; "off"])
     ∧ (Str.lower v ∉ ["false"; "0"; "no"; "off"] →
        resolve_storage_mode env self = true))
  ∧ (env !! ENV_VAR__ISSUES__IN_MEMORY = Some "" →
     resolve_storage_mode env self = true)
  ∧ (env !! ENV_VAR__ISSUES__IN_MEMORY = None →
     resolve_storage_mode env self = run_in_memory self).
Proof.
  unfold resolve_storage_mode, get_env. split; [|split].
  - intros v Hv. rewrite Hv. split; [split|].
    + intros Hres. apply negb_false_iff in Hres. by apply is_in_elem_of.
    + intros Hin. apply negb_false_iff. by apply is_in_elem_of.
    + intros Hnin. apply negb_true_iff.
      destruct (Str.is_in _ _) eqn:E; [|reflexivity].
      apply is_in_elem_of in E. contradiction.
  - intros Hset. by rewrite Hset.
  - intros Hunset. by rewrite Hunset.
Qed.

Lemma resolve_storage_mode_spec_witness :
  resolve_storage_mode {[ENV_VAR__ISSUES__IN_MEMORY := "Off"]} default_instance
  = false
  ∧ resolve_storage_mode {[ENV_VAR__ISSUES__IN_MEMORY := "yes"]} disk_instance
    = true
  ∧ resolve_storage_mode {[ENV_VAR__ISSUES__IN_MEMORY := ""]} disk_instance
    = true
  ∧ resolve_storage_mode ∅ disk_instance = false.
Proof.
  split; [|split; [|split]].
  - destruct (resolve_storage_mode_spec
                {[ENV_VAR__ISSUES__IN_MEMORY := "Off"]} default_instance)
      as [Hset _].
    destruct (Hset "Off" eq_refl) as [[_ Hfalse] _].
    apply Hfalse. apply is_in_elem_of. reflexivity.
  - destruct (resolve_storage_mode_spec
                {[ENV_VAR__ISSUES__IN_MEMORY := "yes"]} disk_instance)
      as [Hset _].
    destruct (Hset "yes" eq_refl) as [_ Htrue].
    apply Htrue. intros Hin. apply is_in_elem_of in Hin. discriminate Hin.
  - destruct (resolve_storage_mode_spec
                {[ENV_VAR__ISSUES__IN_MEMORY := ""]} disk_instance)
      as (_ & Hempty & _).
    exact (Hempty eq_refl).
  - destruct (resolve_storage_mode_spec ∅ disk_instance) as (_ & _ & Hunset).
    exact (Hunset eq_refl).
Defined.

(** C6.  When [ISSUES__PATH] is set to a non-empty string,
    [resolve_issues_path] returns that string; when it is unset or empty it
    returns the [issues_path] attribute of the instance, whose class default
    is ".issues". *)
Theorem resolve_issues_path_spec (env : gmap string string)
    (self : Issues_FS__Service_UI__Fast_API) :
  (∀ v : string, env !! ENV_VAR__ISSUES__PATH = Some v → v ≠ "" →
     resolve_issues_path env self = v)
  ∧ (env !! ENV_VAR__ISSUES__PATH = None ∨ env !! ENV_VAR__ISSUES__PATH = Some "" →
     resolve_issues_path env self = issues_path self)
  ∧ (env !! ENV_VAR__ISSUES__PATH = None ∨ env !! ENV_VAR__ISSUES__PATH = Some "" →
     resolve_issues_path env default_instance = ".issues").
Proof.
  unfold resolve_issues_path, get_env. split; [|split].
  - intros v Hv Hne. rewrite Hv.
    apply truthy_true in Hne. by rewrite Hne.
  - intros [Hv|Hv]; by rewrite Hv.
  - intros [Hv|Hv]; by rewrite Hv.
Qed.

Lemma resolve_issues_path_spec_witness :
  resolve_issues_path {[ENV_VAR__ISSUES__PATH := "/tmp/x"]} default_instance
  = "/tmp/x"
  ∧ resolve_issues_path {[ENV_VAR__ISSUES__PATH := ""]} default_instance
    = ".issues"
  ∧ resolve_issues_path ∅ default_instance = ".issues".
Proof.
  split; [|split].
  - destruct (resolve_issues_path_spec
                {[ENV_VAR__ISSUES__PATH := "/tmp/x"]} default_instance)
      as [Hset _].
    apply (Hset "/tmp/x" eq_refl). discriminate.
  - destruct (resolve_issues_path_spec
                {[ENV_VAR__ISSUES__PATH := ""]} default_instance)
      as (_ & _ & Hdefault).
    apply Hdefault. right. reflexivity.
  - destruct (resolve_issues_path_spec ∅ default_instance)
      as (_ & _ & Hdefault).
    apply Hdefault. left. reflexivity.
Defined.

(** C7.  When [ISSUES__ROOT_PATH] is set to a non-empty string,
    [resolve_root_path] returns that string; otherwise it returns the
    [root_path] attribute of the instance when that is non-empty, and the
    empty string when it is empty.  Called as a method it ends with a value
    on every state, never with an exception, and leaves the state as it
    was. *)
Theorem resolve_root_path_spec (env : gmap string string)
    (self : Issues_FS__Service_UI__Fast_API) :
  (∀ v : string, env !! ENV_VAR__ISSUES__ROOT_PATH = Some v → v ≠ "" →
     resolve_root_path env self = v)
  ∧ (env !! ENV_VAR__ISSUES__ROOT_PATH = None
     ∨ env !! ENV_VAR__ISSUES__ROOT_PATH = Some "" →
     (root_path self ≠ "" → resolve_root_path env self = root_path self)
     ∧ (root_path self = "" → resolve_root_path env self = ""))
  ∧ (∀ (W Exn : Type) (s : State W Exn),
       method (resolve_root_path env) s = Ok (resolve_root_path env (app s)) s).
Proof.
  unfold resolve_root_path, get_env. split; [|split].
  - intros v Hv Hne. rewrite Hv.
    apply truthy_true in Hne. by rewrite Hne.
  - intros Hv. split.
    + intros Hne. apply truthy_true in Hne.
      destruct Hv as [Hv|Hv]; rewrite Hv; cbn; by rewrite Hne.
    + intros He. apply truthy_false in He.
      destruct Hv as [Hv|Hv]; rewrite Hv; cbn; by rewrite He.
  - reflexivity.
Qed.

Lemma resolve_root_path_spec_witness :
  resolve_root_path {[ENV_VAR__ISSUES__ROOT_PATH := "data/project-1"]}
    (set_root_path "data/other" default_instance) = "data/project-1"
  ∧ resolve_root_path {[ENV_VAR__ISSUES__ROOT_PATH := ""]}
      (set_root_path "data/other" default_instance) = "data/other"
  ∧ resolve_root_path ∅ default_instance = "".
Proof.
  split; [|split].
  - destruct (resolve_root_path_spec
                {[ENV_VAR__ISSUES__ROOT_PATH := "data/project-1"]}
                (set_root_path "data/other" default_instance))
      as [Hset _].
    apply (Hset "data/project-1" eq_refl). discriminate.
  - destruct (resolve_root_path_spec
                {[ENV_VAR__ISSUES__ROOT_PATH := ""]}
                (set_root_path "data/other" default_instance))
      as (_ & Hfall & _).
    destruct (Hfall (or_intror eq_refl)) as [Hinst _].
    apply Hinst. discriminate.
  - destruct (resolve_root_path_spec ∅ default_instance)
      as (_ & Hfall & _).
    destruct (Hfall (or_introl eq_refl)) as [_ Hempty].
    apply Hempty. reflexivity.
Defined.

(** C8.  [setup_static_routes] mounts the console directory and registers,
    at "/" followed by the route name, a GET endpoint that answers every
    request with a redirect to
    "/<route>/<major version>/<latest version>/<start page>.html" built from
    the constants of [config]; with the shipped constants the target is
    "/console/v0/v0.1/v0.1.7/index.html". *)
Theorem console_redirect_target (path_static_folder : string)
    (router : list Router_Entry) :
  ∃ endpoint : unit → Response,
    setup_static_routes path_static_folder router
    = (router
       ++ [Mount ("/" +:+ config.UI__CONSOLE__ROUTE__CONSOLE) path_static_folder
             config.UI__CONSOLE__ROUTE__CONSOLE;
           Route_GET ("/" +:+ config.UI__CONSOLE__ROUTE__CONSOLE) endpoint])%list
    ∧ endpoints_at ("/" +:+ config.UI__CONSOLE__ROUTE__CONSOLE)
        (setup_static_routes path_static_folder router)
      = (endpoints_at ("/" +:+ config.UI__CONSOLE__ROUTE__CONSOLE) router
         ++ [endpoint])%list
    ∧ ∀ request : unit,
        endpoint request
        = RedirectResponse
            ("/" +:+ config.UI__CONSOLE__ROUTE__CONSOLE
             +:+ "/" +:+ config.UI__CONSOLE__MAJOR__VERSION
             +:+ "/" +:+ config.UI__CONSOLE__LATEST__VERSION
             +:+ "/" +:+ config.UI__CONSOLE__ROUTE__START_PAGE +:+ ".html")
        ∧ endpoint request
          = RedirectResponse "/console/v0/v0.1/v0.1.7/index.html".
Proof.
  exists redirect_to_latest. split; [|split].
  - unfold setup_static_routes. cbv zeta. by rewrite <- app_assoc.
  - unfold setup_static_routes, endpoints_at. cbv zeta.
    rewrite <- app_assoc, omap_app. reflexivity.
  - intros request. split; reflexivity.
Qed.

(** ** Logs *)

Lemma precedes_happens_before {E} (P Q : E → bool) (l : list E) :
  precedes P Q l = true → happens_before P Q l.
Proof.
  induction l as [|a l IH]; intros Hp l1 e l2 Hl Hq.
  - destruct l1; discriminate Hl.
  - cbn in Hp. apply andb_true_iff in Hp as [Hqa Hrest].
    destruct l1 as [|b l1]; cbn in Hl; injection Hl as -> ->.
    + rewrite Hq in Hqa. discriminate Hqa.
    + apply orb_true_iff in Hrest as [Hpa|Hrest].
      * eexists. split; [apply list_elem_of_here|exact Hpa].
      * destruct (IH Hrest l1 e l2 eq_refl Hq) as (e' & Hin & Hpe).
        exists e'. split; [by apply list_elem_of_further|exact Hpe].
Qed.

Lemma existsb_occurs {E} (P : E → bool) (l : list E) :
  existsb P l = true → occurs P l.
Proof.
  intros (e & Hin & Hp)%existsb_exists.
  exists e. split; [by apply list_elem_of_In|exact Hp].
Qed.

(** ** setup_services *)

Lemma resolve_storage_mode_set (env : gmap string string)
    (self0 : Issues_FS__Service_UI__Fast_API) (v : string) :
  env !! ENV_VAR__ISSUES__IN_MEMORY = Some v →
  Str.lower v ∉ ["false"; "0"; "no"; "off"] →
  resolve_storage_mode env self0 = true.
Proof.
  intros Hv Hnin. unfold resolve_storage_mode, get_env. rewrite Hv.
  apply negb_true_iff. destruct (Str.is_in _ _) eqn:E; [|reflexivity].
  apply is_in_elem_of in E. contradiction.
Qed.

Section Setup_Properties.

Context {W Exn : Type}.
Variable ext : Call → W → Outcome W Exn.
Variable env : gmap string string.


(** C2.  In [setup_services] the path handler is constructed from
    [path_base]: the resolved issues path when the resolved storage mode is
    in-memory, the empty string when it is disk-backed.  No path handler is
    constructed from another base, and when the setup completes the
    [path_handler] attribute is the one constructed from that base. *)
Theorem setup_services_path_base
    (self0 : Issues_FS__Service_UI__Fast_API) (w : W) :
  let r := setup_services ext env (start self0 w) in
  let use_memory := resolve_storage_mode env self0 in
  let path_base :=
    if use_memory then resolve_issues_path env self0 else "" in
  (∀ b : string,
     Invoke (new_Path__Handler__Graph_Node b) ∈ log (final r) →
     (use_memory = true → b = resolve_issues_path env self0)
     ∧ (use_memory = false → b = ""))
  ∧ (completed r = true →
     Invoke (new_Path__Handler__Graph_Node path_base) ∈ log (final r)
     ∧ path_handler (app (final r)) = Some {| base_path := path_base |}).
Proof.
  run_setup ext env self0; split.
  all: try (intros b Hin; in_log Hin; injection Hin as ->;
            split; intros Hm; first [reflexivity|discriminate Hm]).
  all: intros Hdone; try discriminate Hdone.
  all: split; [find_in_log|reflexivity].
Qed.

(** C3.  On every run of [setup_services], whether it completes or stops at
    a raising call: [ensure_root_issue_exists] is only invoked after
    [initialize_default_types] has returned, and [set_current_root] is only
    invoked after [ensure_root_issue_exists] has returned.  A run that
    completes has made both initialisation calls. *)
Theorem setup_services_initialisation_order
    (self0 : Issues_FS__Service_UI__Fast_API) (w : W) :
  let r := setup_services ext env (start self0 w) in
  happens_before (returned is_initialize_default_types)
    (invoked is_ensure_root_issue_exists) (log (final r))
  ∧ happens_before (returned is_ensure_root_issue_exists)
      (invoked is_set_current_root) (log (final r))
  ∧ (completed r = true →
     occurs (returned is_initialize_default_types) (log (final r))
     ∧ occurs (returned is_ensure_root_issue_exists) (log (final r))).
Proof.
  run_setup ext env self0.
  all: split; [apply precedes_happens_before; reflexivity|].
  all: split; [apply precedes_happens_before; reflexivity|].
  all: intros Hdone; try discriminate Hdone.
  all: split; apply existsb_occurs; reflexivity.
Qed.


(** C5.  When [resolve_storage_mode] returns [False], [setup_services] sets
    [run_in_memory] to [False] before it constructs the disk backend: the
    construction of the backend is the first call of the run, the attribute
    is already [False] in the state reached when that construction raises,
    and it is [False] in the state reached at the end of every run. *)
Theorem setup_services_disk_flag
    (self0 : Issues_FS__Service_UI__Fast_API) (w : W) :
  let r := setup_services ext env (start self0 w) in
  let backend := new_Storage_FS__Local_Disk (resolve_issues_path env self0) in
  resolve_storage_mode env self0 = false →
  run_in_memory (app (final r)) = false
  ∧ head (log (final r)) = Some (Invoke backend)
  ∧ (∀ (exn : Exn) (w' : W),
       ext backend w = Raises exn w' →
       r = Raised exn {| app := set_run_in_memory false self0;
                         world := w';
                         log := [Invoke backend; Raise backend exn] |}).
Proof.
  run_setup ext env self0; intros Hdisk; try discriminate Hdisk.
  all: split; [reflexivity|]; split; [reflexivity|].
  all: intros exn w' Hraises; try discriminate Hraises.
  all: injection Hraises as -> ->; reflexivity.
Qed.

(** C9.  [setup_services] never sets [run_in_memory] to [True]: the
    attribute is [True] at the end of a run only if it was at the start, and
    the in-memory branch leaves it as it was.  So on an instance whose
    [run_in_memory] is [False], with [ISSUES__IN_MEMORY] set to a value
    outside the four disk tokens, the resolved mode is in-memory and a run
    that completes has the memory backend in [memory_fs] while
    [run_in_memory] is still [False]. *)
Theorem setup_services_flag_never_raised
    (self0 : Issues_FS__Service_UI__Fast_API) (w : W) :
  let r := setup_services ext env (start self0 w) in
  (run_in_memory (app (final r)) = true → run_in_memory self0 = true)
  ∧ (resolve_storage_mode env self0 = true →
     run_in_memory (app (final r)) = run_in_memory self0)
  ∧ (∀ v : string,
       run_in_memory self0 = false →
       env !! ENV_VAR__ISSUES__IN_MEMORY = Some v →
       Str.lower v ∉ ["false"; "0"; "no"; "off"] →
       resolve_storage_mode env self0 = true
       ∧ (completed r = true →
          memory_fs (app (final r))
          = Some {| memory_fs__storage_fs := Storage_FS__Memory |}
          ∧ run_in_memory (app (final r)) = false)).
Proof.
  run_setup ext env self0.
  all: split; [intros Hflag; first [discriminate Hflag|exact Hflag]|].
  all: split; [intros Hmem; first [discriminate Hmem|reflexivity]|].
  all: intros v Hinit Hv Hnin.
  all: pose proof (resolve_storage_mode_set env self0 v Hv Hnin) as Hset.
  all: rewrite Hmode in Hset; try discriminate Hset.
  all: split; [reflexivity|]; intros Hdone; try discriminate Hdone.
  all: split; [reflexivity|exact Hinit].
Qed.

End Setup_Properties.

(** ** The properties on sample runs *)


Lemma setup_services_path_base_witness :
  let disk := setup_services calm env_disk (start default_instance ()) in
  let memory := setup_services calm ∅ (start default_instance ()) in
  path_handler (app (final disk)) = Some {| base_path := "" |}
  ∧ path_handler (app (final memory)) = Some {| base_path := ".issues" |}.
Proof.
  split.
  - destruct (setup_services_path_base calm env_disk default_instance ())
      as [_ Hdone].
    destruct (Hdone eq_refl) as [_ Hhandler]. exact Hhandler.
  - destruct (setup_services_path_base calm ∅ default_instance ())
      as [_ Hdone].
    destruct (Hdone eq_refl) as [_ Hhandler]. exact Hhandler.
Defined.

Lemma setup_services_initialisation_order_witness :
  let l := log (final (setup_services calm env_root (start default_instance ()))) in
  (∃ e, e ∈ take 34 l ∧ returned is_initialize_default_types e = true)
  ∧ (∃ e, e ∈ take 36 l ∧ returned is_ensure_root_issue_exists e = true)
  ∧ occurs (returned is_initialize_default_types) l
  ∧ occurs (returned is_ensure_root_issue_exists) l.
Proof.
  destruct (setup_services_initialisation_order calm env_root
              default_instance ()) as (Hinit & Hensure & Hdone).
  split; [|split].
  - eapply Hinit; [vm_compute; reflexivity|reflexivity].
  - eapply Hensure; [vm_compute; reflexivity|reflexivity].
  - exact (Hdone eq_refl).
Defined.


Lemma setup_services_disk_flag_witness :
  let failed := setup_services no_disk env_disk (start default_instance ()) in
  let passed := setup_services calm env_disk (start default_instance ()) in
  (completed failed = false ∧ run_in_memory (app (final failed)) = false)
  ∧ (completed passed = true ∧ run_in_memory (app (final passed)) = false).
Proof.
  split.
  - destruct (setup_services_disk_flag no_disk env_disk default_instance ()
                eq_refl) as (_ & _ & Hraise).
    rewrite (Hraise "disk not available" () eq_refl).
    split; reflexivity.
  - destruct (setup_services_disk_flag calm env_disk default_instance ()
                eq_refl) as (Hflag & _).
    split; [reflexivity|exact Hflag].
Defined.

Lemma setup_services_flag_never_raised_witness :
  let r := setup_services calm env_memory (start disk_instance ()) in
  completed r = true
  ∧ memory_fs (app (final r))
    = Some {| memory_fs__storage_fs := Storage_FS__Memory |}
  ∧ run_in_memory (app (final r)) = false.
Proof.
  destruct (setup_services_flag_never_raised calm env_memory disk_instance ())
    as (_ & _ & Hdisagree).
  destruct (Hdisagree "true" eq_refl eq_refl) as [_ Hdone].
  - intros Hin. apply is_in_elem_of in Hin. discriminate Hin.
  - split; [reflexivity|exact (Hdone eq_refl)].
Defined.

(** * Further properties *)

(** ** The resolvers *)

(** X1.  The storage mode read from [ISSUES__IN_MEMORY] depends on the value
    up to letter case only: two environments whose values have the same
    lowercase form resolve to the same mode, whatever the other variables
    and whatever the instances. *)
Theorem resolve_storage_mode_case_insensitive
    (env env' : gmap string string)
    (self self' : Issues_FS__Service_UI__Fast_API) (v v' : string) :
  env !! ENV_VAR__ISSUES__IN_MEMORY = Some v →
  env' !! ENV_VAR__ISSUES__IN_MEMORY = Some v' →
  Str.lower v = Str.lower v' →
  resolve_storage_mode env self = resolve_storage_mode env' self'.
Proof.
  intros Hv Hv' Hlower. unfold resolve_storage_mode, get_env.
  by rewrite Hv, Hv', Hlower.
Qed.

Lemma resolve_storage_mode_case_insensitive_witness :
  resolve_storage_mode {[ENV_VAR__ISSUES__IN_MEMORY := "FALSE"]} default_instance
  = resolve_storage_mode env_disk disk_instance.
Proof.
  apply (resolve_storage_mode_case_insensitive _ _ _ _ "FALSE" "false");
    reflexivity.
Defined.

(** X2.  Each resolver reads its own variable only: setting or unsetting any
    other variable of the environment leaves its result unchanged. *)
Theorem resolvers_ignore_other_variables (env : gmap string string)
    (self : Issues_FS__Service_UI__Fast_API) (k v : string) :
  (k ≠ ENV_VAR__ISSUES__IN_MEMORY →
   resolve_storage_mode (<[k:=v]> env) self = resolve_storage_mode env self
   ∧ resolve_storage_mode (delete k env) self = resolve_storage_mode env self)
  ∧ (k ≠ ENV_VAR__ISSUES__PATH →
     resolve_issues_path (<[k:=v]> env) self = resolve_issues_path env self
     ∧ resolve_issues_path (delete k env) self = resolve_issues_path env self)
  ∧ (k ≠ ENV_VAR__ISSUES__ROOT_PATH →
     resolve_root_path (<[k:=v]> env) self = resolve_root_path env self
     ∧ resolve_root_path (delete k env) self = resolve_root_path env self).
Proof.
  unfold resolve_storage_mode, resolve_issues_path, resolve_root_path, get_env.
  split; [|split]; intros Hk;
    by rewrite lookup_insert_ne, lookup_delete_ne.
Qed.

Lemma resolvers_ignore_other_variables_witness :
  resolve_storage_mode (<[ENV_VAR__ISSUES__PATH := "/tmp/x"]> env_memory)
    disk_instance = true
  ∧ resolve_issues_path (<[ENV_VAR__ISSUES__ROOT_PATH := "a"]> env_disk)
      default_instance = "/tmp/x"
  ∧ resolve_root_path (delete ENV_VAR__ISSUES__PATH env_root)
      default_instance = "data/project-1".
Proof.
  destruct (resolvers_ignore_other_variables env_memory disk_instance
              ENV_VAR__ISSUES__PATH "/tmp/x") as (Hmode & _ & _).
  destruct (resolvers_ignore_other_variables env_disk default_instance
              ENV_VAR__ISSUES__ROOT_PATH "a") as (_ & Hpath & _).
  destruct (resolvers_ignore_other_variables env_root default_instance
              ENV_VAR__ISSUES__PATH "") as (_ & _ & Hroot).
  split; [|split].
  - destruct Hmode as [-> _]; [discriminate|reflexivity].
  - destruct Hpath as [-> _]; [discriminate|reflexivity].
  - destruct Hroot as [_ ->]; [discriminate|reflexivity].
Defined.

(** X3.  A resolved path is empty only when both of its sources are: the
    resolved root path is empty exactly when [ISSUES__ROOT_PATH] is unset or
    empty and the [root_path] attribute is empty, and likewise for the
    resolved issues path with [ISSUES__PATH] and [issues_path]. *)
Theorem resolved_paths_empty_iff (env : gmap string string)
    (self : Issues_FS__Service_UI__Fast_API) :
  (resolve_root_path env self = ""
   ↔ (env !! ENV_VAR__ISSUES__ROOT_PATH = None
      ∨ env !! ENV_VAR__ISSUES__ROOT_PATH = Some "")
     ∧ root_path self = "")
  ∧ (resolve_issues_path env self = ""
     ↔ (env !! ENV_VAR__ISSUES__PATH = None
        ∨ env !! ENV_VAR__ISSUES__PATH = Some "")
       ∧ issues_path self = "").
Proof.
  unfold resolve_root_path, resolve_issues_path, get_env. split.
  - destruct (env !! ENV_VAR__ISSUES__ROOT_PATH) as [[|c v]|];
      destruct (root_path self) as [|c' r]; cbn; split;
      try (intros [[?|?] ?]); try intros ?; try discriminate; auto.
  - destruct (env !! ENV_VAR__ISSUES__PATH) as [[|c v]|];
      destruct (issues_path self) as [|c' r]; cbn; split;
      try (intros [[?|?] ?]); try intros ?; try discriminate; auto.
Qed.

(** X4.  [get_current_root_path] returns the [root_path] attribute when it is
    non-empty and the [issues_path] attribute otherwise, so it is empty only
    when both attributes are; it agrees with [resolve_root_path] whenever
    the environment does not override a non-empty [root_path]. *)
Theorem get_current_root_path_spec (env : gmap string string)
    (self : Issues_FS__Service_UI__Fast_API) :
  (get_current_root_path self = ""
   ↔ root_path self = "" ∧ issues_path self = "")
  ∧ (root_path self ≠ "" →
     env !! ENV_VAR__ISSUES__ROOT_PATH = None
     ∨ env !! ENV_VAR__ISSUES__ROOT_PATH = Some "" →
     get_current_root_path self = resolve_root_path env self)
  ∧ (root_path self = "" → get_current_root_path self = issues_path self).
Proof.
  unfold get_current_root_path, resolve_root_path, get_env.
  split; [|split].
  - destruct (root_path self) as [|c r]; cbn; split;
      try (intros [? ?]); try intros ?; try discriminate; auto.
  - intros Hne [Hv|Hv]; rewrite Hv; apply truthy_true in Hne; cbn;
      by rewrite Hne.
  - intros ->. reflexivity.
Qed.

Lemma get_current_root_path_spec_witness :
  get_current_root_path (set_root_path "data/other" default_instance)
  = resolve_root_path ∅ (set_root_path "data/other" default_instance)
  ∧ get_current_root_path default_instance = ".issues".
Proof.
  split.
  - destruct (get_current_root_path_spec ∅
                (set_root_path "data/other" default_instance))
      as (_ & Hroot & _).
    apply Hroot; [discriminate|left; reflexivity].
  - destruct (get_current_root_path_spec ∅ default_instance)
      as (_ & _ & Hissues).
    exact (Hissues eq_refl).
Defined.

(** ** setup_services: what a run keeps *)




Section Setup_Frame.

Context {W Exn : Type}.
Variable ext : Call → W → Outcome W Exn.
Variable env : gmap string string.

(** X5.  At the end of every run of [setup_services], completed or not,
    [run_in_memory] is the conjunction of its value at the start and of the
    resolved storage mode.  So when [ISSUES__IN_MEMORY] is unset the
    attribute equals the resolved mode, and the two can only differ on an
    instance that started with [run_in_memory] at [False]. *)
Theorem setup_services_flag_value
    (self0 : Issues_FS__Service_UI__Fast_API) (w : W) :
  let r := setup_services ext env (start self0 w) in
  run_in_memory (app (final r))
  = run_in_memory self0 && resolve_storage_mode env self0
  ∧ (env !! ENV_VAR__ISSUES__IN_MEMORY = None →
     run_in_memory (app (final r)) = resolve_storage_mode env self0)
  ∧ (run_in_memory (app (final r)) ≠ resolve_storage_mode env self0 →
     run_in_memory self0 = false ∧ resolve_storage_mode env self0 = true).
Proof.
  intros r.
  assert (run_in_memory (app (final r))
          = run_in_memory self0 && resolve_storage_mode env self0) as Hflag.
  { subst r. run_setup ext env self0;
      first [apply eq_sym, andb_true_r|apply eq_sym, andb_false_r]. }
  split; [exact Hflag|]. rewrite Hflag. split.
  - intros Hunset. unfold resolve_storage_mode, get_env. rewrite Hunset.
    apply andb_diag.
  - destruct (run_in_memory self0), (resolve_storage_mode env self0);
      cbn; intros Hne; first [done|by exfalso; apply Hne].
Qed.

(** X6.  [setup_services] never assigns [issues_path], and a run that does
    not complete leaves [root_path] as it was: the root is written by the
    last statement only. *)
Theorem setup_services_frame
    (self0 : Issues_FS__Service_UI__Fast_API) (w : W) :
  let r := setup_services ext env (start self0 w) in
  issues_path (app (final r)) = issues_path self0
  ∧ (completed r = false → root_path (app (final r)) = root_path self0).
Proof.
  run_setup ext env self0; (split; [reflexivity|]); intros Hstop;
    first [discriminate Hstop|reflexivity].
Qed.


End Setup_Frame.

Lemma setup_services_flag_value_witness :
  let unset := setup_services calm ∅ (start disk_instance ()) in
  let forced := setup_services calm env_memory (start disk_instance ()) in
  run_in_memory (app (final unset)) = resolve_storage_mode ∅ disk_instance
  ∧ run_in_memory disk_instance = false
  ∧ resolve_storage_mode env_memory disk_instance = true.
Proof.
  split.
  - destruct (setup_services_flag_value calm ∅ disk_instance ())
      as (_ & Hunset & _).
    exact (Hunset eq_refl).
  - destruct (setup_services_flag_value calm env_memory disk_instance ())
      as (_ & _ & Hdiffer).
    apply Hdiffer. vm_compute. discriminate.
Defined.

Lemma setup_services_frame_witness :
  let r := setup_services no_such_root env_root (start default_instance ()) in
  issues_path (app (final r)) = ".issues" ∧ root_path (app (final r)) = "".
Proof.
  destruct (setup_services_frame no_such_root env_root default_instance ())
    as [Hissues Hroot].
  split; [exact Hissues|exact (Hroot eq_refl)].
Defined.

(** ** setup_services: calls and exceptions *)

Section Setup_Calls.

Context {W Exn : Type}.
Variable ext : Call → W → Outcome W Exn.
Variable env : gmap string string.



(** X10.  The initialisation methods are called on the services of the
    instance: the receiver of [initialize_default_types], of
    [ensure_root_issue_exists] and of [set_current_root] is the object held
    by the attribute [type_service], [root_issue_service] and
    [root_selection_service] at the end of the run, and it is built over the
    repository held by [graph_repository]. *)
Theorem setup_services_receivers
    (self0 : Issues_FS__Service_UI__Fast_API) (w : W) :
  let r := setup_services ext env (start self0 w) in
  (∀ svc : Type__Service,
     Invoke (initialize_default_types svc) ∈ log (final r) →
     type_service (app (final r)) = Some svc
     ∧ graph_repository (app (final r)) = Some (type_service__repository svc))
  ∧ (∀ svc : Root__Issue__Service,
       Invoke (ensure_root_issue_exists svc) ∈ log (final r) →
       root_issue_service (app (final r)) = Some svc
       ∧ graph_repository (app (final r)) = Some (root_issue__repository svc))
  ∧ (∀ (svc : Root__Selection__Service) (req : Schema__Root__Select__Request),
       Invoke (set_current_root svc req) ∈ log (final r) →
       root_selection_service (app (final r)) = Some svc
       ∧ graph_repository (app (final r))
         = Some (root_selection__repository svc)).
Proof.
  run_setup ext env self0.
  all: split; [intros svc Hin; in_log Hin; injection Hin as ->; by split|].
  all: split; [intros svc Hin; in_log Hin; injection Hin as ->; by split|].
  all: intros svc req Hin; in_log Hin; injection Hin as -> ->; by split.
Qed.

End Setup_Calls.

(** ** setup_services: the services of a completed run *)

Section Setup_Wiring.

Context {W Exn : Type}.
Variable ext : Call → W → Outcome W Exn.
Variable env : gmap string string.

(** X11.  A completed run leaves one repository shared by all services:
    every attribute of the service chain is set, the repository is built
    from the [memory_fs] and [path_handler] attributes, the seven graph
    services are built over that repository (and that path handler), and
    the status services observe the same backend, type service and
    repository. *)
Theorem setup_services_shared_repository
    (self0 : Issues_FS__Service_UI__Fast_API) (w : W) :
  let r := setup_services ext env (start self0 w) in
  let self1 := app (final r) in
  completed r = true →
  ∃ (fs : Memory_FS) (ph : Path__Handler__Graph_Node)
    (ts : Type__Service) (sss : Storage__Status__Service)
    (tss : Types__Status__Service) (iss : Index__Status__Service),
    let repo := {| repository__memory_fs := fs;
                   repository__path_handler := ph |} in
    memory_fs self1 = Some fs
    ∧ path_handler self1 = Some ph
    ∧ graph_repository self1 = Some repo
    ∧ type_service self1 = Some ts
    ∧ ts = {| type_service__repository := repo |}
    ∧ node_service self1 = Some {| node_service__repository := repo |}
    ∧ link_service self1 = Some {| link_service__repository := repo |}
    ∧ comments_service self1 = Some {| comments_service__repository := repo |}
    ∧ root_selection_service self1
      = Some {| root_selection__repository := repo;
                root_selection__path_handler := ph |}
    ∧ root_issue_service self1
      = Some {| root_issue__repository := repo;
                root_issue__path_handler := ph |}
    ∧ issue_children_service self1
      = Some {| issue_children__repository := repo;
                issue_children__path_handler := ph |}
    ∧ storage_status__service self1 = Some sss
    ∧ sss = {| storage_status__storage_fs := memory_fs__storage_fs fs |}
    ∧ git_status__service self1 = Some Build_Git__Status__Service
    ∧ types_status__service self1 = Some tss
    ∧ tss = {| types_status__type_service := ts |}
    ∧ index_status__service self1 = Some iss
    ∧ iss = {| index_status__type_service := ts;
               index_status__repository := repo |}
    ∧ server_status_service self1
      = Some {| server_status__storage_service := sss;
                server_status__git_service := Build_Git__Status__Service;
                server_status__types_service := tss;
                server_status__index_service := iss |}.
Proof.
  run_setup ext env self0; intros Hdone; try discriminate Hdone.
  all: do 6 eexists; repeat (split; [reflexivity|]); reflexivity.
Qed.

(** X12.  The backend follows the resolved storage mode: every run enters
    exactly one backend construction, as its first call, the memory backend
    in in-memory mode and the disk backend rooted at the resolved issues
    path in disk mode; after a completed run that backend is the one behind
    [memory_fs] and the one the storage status service observes. *)
Theorem setup_services_backend
    (self0 : Issues_FS__Service_UI__Fast_API) (w : W) :
  let r := setup_services ext env (start self0 w) in
  let issues := resolve_issues_path env self0 in
  let constructor :=
    if resolve_storage_mode env self0 then new_Storage_FS__Memory
    else new_Storage_FS__Local_Disk issues in
  let backend :=
    if resolve_storage_mode env self0 then Storage_FS__Memory
    else Storage_FS__Local_Disk issues in
  List.filter is_new_storage_fs (invocations (log (final r)))
  = [constructor]
  ∧ head (invocations (log (final r))) = Some constructor
  ∧ (completed r = true →
     memory_fs (app (final r)) = Some {| memory_fs__storage_fs := backend |}
     ∧ storage_status__service (app (final r))
       = Some {| storage_status__storage_fs := backend |}).
Proof.
  run_setup ext env self0.
  all: split; [reflexivity|]; split; [reflexivity|].
  all: intros Hdone; first [discriminate Hdone|by split].
Qed.

Lemma setup_services_route_services
    (self0 : Issues_FS__Service_UI__Fast_API) (w : W) :
  let self1 := app (final (setup_services ext env (start self0 w))) in
  completed (setup_services ext env (start self0 w)) = true →
  ∃ (repo : Graph__Repository) (ph : Path__Handler__Graph_Node)
    (server : Server__Status__Service),
    graph_repository self1 = Some repo
    ∧ link_service self1 = Some {| link_service__repository := repo |}
    ∧ node_service self1 = Some {| node_service__repository := repo |}
    ∧ type_service self1 = Some {| type_service__repository := repo |}
    ∧ server_status_service self1 = Some server
    ∧ comments_service self1 = Some {| comments_service__repository := repo |}
    ∧ root_selection_service self1
      = Some {| root_selection__repository := repo;
                root_selection__path_handler := ph |}
    ∧ issue_children_service self1
      = Some {| issue_children__repository := repo;
                issue_children__path_handler := ph |}.
Proof.
  run_setup ext env self0; intros Hdone; try discriminate Hdone.
  all: do 3 eexists; repeat (split; [reflexivity|]); reflexivity.
Qed.

(** X13.  After a completed [setup_services], [setup_routes] registers the
    nine route groups in the order of the source after the groups already
    registered; each of the seven groups that takes a service receives a
    constructed one, and the six groups served by a graph service all work
    on the repository of the [graph_repository] attribute. *)
Theorem setup_routes_after_setup_services
    (self0 : Issues_FS__Service_UI__Fast_API) (w : W)
    (registered : list Routes_Registration) :
  let r := setup_services ext env (start self0 w) in
  let added := setup_routes (app (final r)) [] in
  setup_routes (app (final r)) registered = (registered ++ added)%list
  ∧ map routes_class added
    = [Routes__Links; Routes__Nodes; Routes__Types; Routes__Server;
       Routes__Comments; Routes__Roots; Routes__Issues; Routes__Info;
       Routes__Set_Cookie]
  ∧ (completed r = true →
     map service_bound added
     = [true; true; true; true; true; true; true; false; false]
     ∧ Some <$> omap service_repository added
       = replicate 6 (graph_repository (app (final r)))).
Proof.
  intros r added. split; [|split; [reflexivity|]].
  - unfold added, setup_routes, add_routes. cbv zeta.
    rewrite <- !app_assoc. reflexivity.
  - intros Hdone.
    destruct (setup_services_route_services self0 w Hdone)
      as (repo & ph & server & Hrepo & Hlink & Hnode & Htype & Hserver
          & Hcomments & Hroots & Hissues).
    subst added r. unfold setup_routes, add_routes. cbv zeta.
    rewrite Hrepo, Hlink, Hnode, Htype, Hserver, Hcomments, Hroots, Hissues.
    split; reflexivity.
Qed.


End Setup_Wiring.

(** ** setup_static_routes *)

(** X15.  [setup_static_routes] keeps the entries already in the router, in
    place, and adds two after them; the GET endpoints registered at any path
    other than the console route are the same before and after. *)
Theorem setup_static_routes_frame (path_static_folder : string)
    (router : list Router_Entry) (p : string) :
  length (setup_static_routes path_static_folder router)
  = (length router + 2)%nat
  ∧ take (length router) (setup_static_routes path_static_folder router)
    = router
  ∧ (p ≠ "/" +:+ config.UI__CONSOLE__ROUTE__CONSOLE →
     endpoints_at p (setup_static_routes path_static_folder router)
     = endpoints_at p router).
Proof.
  unfold setup_static_routes. cbv zeta. rewrite <- app_assoc.
  split; [|split].
  - rewrite length_app. reflexivity.
  - by rewrite take_app_length.
  - intros Hp. unfold endpoints_at. rewrite omap_app. cbn.
    destruct (String.eqb_spec p ("/" +:+ config.UI__CONSOLE__ROUTE__CONSOLE))
      as [Heq|_]; [contradiction|].
    apply app_nil_r.
Qed.

Lemma setup_static_routes_frame_witness :
  endpoints_at "/events/server" (setup_static_routes "static" []) = [].
Proof.
  destruct (setup_static_routes_frame "static" [] "/events/server")
    as (_ & _ & Hother).
  apply Hother. discriminate.
Defined.

(** ** The further properties on sample runs *)



Lemma setup_services_receivers_witness :
  let r := setup_services calm ∅ (start default_instance ()) in
  let repo :=
    {| repository__memory_fs := {| memory_fs__storage_fs := Storage_FS__Memory |};
       repository__path_handler := {| base_path := ".issues" |} |} in
  type_service (app (final r)) = Some {| type_service__repository := repo |}
  ∧ graph_repository (app (final r)) = Some repo.
Proof.
  destruct (setup_services_receivers calm ∅ default_instance ())
    as (Hinit & _ & _).
  apply (Hinit
           {| type_service__repository :=
                {| repository__memory_fs :=
                     {| memory_fs__storage_fs := Storage_FS__Memory |};
                   repository__path_handler := {| base_path := ".issues" |} |} |}).
  vm_compute. find_in_log.
Defined.

Lemma setup_services_shared_repository_witness :
  let r := setup_services calm ∅ (start default_instance ()) in
  ∃ repo : Graph__Repository,
    graph_repository (app (final r)) = Some repo
    ∧ link_service (app (final r)) = Some {| link_service__repository := repo |}
    ∧ memory_fs (app (final r)) = Some (repository__memory_fs repo).
Proof.
  assert (completed (setup_services calm ∅ (start default_instance ()))
          = true) as Hdone by reflexivity.
  destruct (setup_services_shared_repository calm ∅ default_instance ()
              Hdone)
    as (fs & ph & ts & sss & tss & iss & Hfs & Hph & Hrepo & _ & _ & _
        & Hlink & _).
  eexists. split; [exact Hrepo|]. split; [exact Hlink|exact Hfs].
Defined.

Lemma setup_services_backend_witness :
  let r := setup_services calm env_disk (start default_instance ()) in
  memory_fs (app (final r))
  = Some {| memory_fs__storage_fs := Storage_FS__Local_Disk "/tmp/x" |}.
Proof.
  destruct (setup_services_backend calm env_disk default_instance ())
    as (_ & _ & Hdone).
  destruct (Hdone eq_refl) as [Hfs _]. exact Hfs.
Defined.

Lemma setup_routes_after_setup_services_witness :
  let r := setup_services calm ∅ (start default_instance ()) in
  map service_bound (setup_routes (app (final r)) [])
  = [true; true; true; true; true; true; true; false; false].
Proof.
  destruct (setup_routes_after_setup_services calm ∅ default_instance () [])
    as (_ & _ & Hdone).
  destruct (Hdone eq_refl) as [Hbound _]. exact Hbound.
Defined.

